(** * infi.clickhouse_orm: the [system.parts] model ([system_models.py])

    A shallow embedding of the class [SystemPart]: its declared fields, the
    partition-operation method [_partition_operation_sql] with its five
    wrappers, and the two class methods [get_active] and [all].

    Python values are modelled as follows.
    - [str] is [string]; the model covers strings of 7-bit ASCII characters
      ([str.upper] is written out for the letters a-z and is the identity on
      every other character).
    - [frozenset] of strings is [gset string]; a settings [dict] is
      [gmap string string]; [None] for an optional argument is [None].
    - The external connection is never executed: every delegated call
      ([db.raw], [database.select]) is appended to a log of calls, and its
      outcome is whatever the connection object answers.
    - A raised exception is the left injection of a sum, a returned value
      the right one.
    - [assert] statements are executed (the interpreter runs without -O). *)

From Stdlib Require Import Ascii String List Bool.
From stdpp Require Import base strings gmap list.
Import ListNotations.

(** ** Python strings *)

(** [str.upper] on one ASCII character. *)
Definition ascii_upper (c : ascii) : ascii :=
  if (Ascii.leb "a" c && Ascii.leb c "z")%bool
  then ascii_of_nat (nat_of_ascii c - 32)
  else c.

(** [str.upper]. *)
Fixpoint upper (s : string) : string :=
  match s with
  | EmptyString => EmptyString
  | String c s' => String (ascii_upper c) (upper s')
  end.

(** The exceptions that can leave the methods of this file. *)
Inductive assertion : Type :=
| operation_must_be_in (names : gset string)
    (* "operation must be in [%s]" % ', '.join(self.OPERATIONS); the names
       are joined in the iteration order of the frozenset *)
| database_must_be_Database
    (* "database must be database.Database class instance" *).

Inductive exn : Type :=
| AssertionError (a : assertion)
| AttributeError (attr : string)
| TypeError (msg : string)
| ValueError (msg : string)
| ServerError (msg : string)
    (* anything raised by the external connection, surfaced unmodified *).

(** The [%] operator of [str], for templates made of literal text, [%s]
    and [%%], applied to string arguments. *)
Fixpoint pyformat (template : string) (args : list string) : exn + string :=
  match template with
  | EmptyString =>
      match args with
      | [] => inr EmptyString
      | _ :: _ =>
          inl (TypeError "not all arguments converted during string formatting")
      end
  | String c t =>
      if Ascii.eqb c "%" then
        match t with
        | EmptyString => inl (ValueError "incomplete format")
        | String c' t' =>
            if Ascii.eqb c' "s" then
              match args with
              | [] => inl (TypeError "not enough arguments for format string")
              | a :: args' =>
                  match pyformat t' args' with
                  | inl e => inl e
                  | inr r => inr (a +:+ r)
                  end
              end
            else if Ascii.eqb c' "%" then
              match pyformat t' args with
              | inl e => inl e
              | inr r => inr (String "%" r)
              end
            else inl (ValueError "unsupported format character")
        end
      else
        match pyformat t args with
        | inl e => inl e
        | inr r => inr (String c r)
        end
  end.

(** [sep.join(l)]. *)
Definition join (sep : string) (l : list string) : string :=
  String.concat sep l.

(** [s.endswith(suffix)], as a proposition. *)
Definition endswith (s suffix : string) : Prop :=
  exists front : string, s = front +:+ suffix.

(** ** The data model *)

(** The field classes of [fields.py] used by this model. *)
Inductive Field : Type :=
| StringField
| UInt8Field
| UInt32Field
| UInt64Field
| DateTimeField.

(** What a class method sees of its class: the ordered list [cls._fields]
    of (name, field) pairs and the result of [cls.table_name()]. *)
Record ModelClass : Type := {
  _fields : list (string * Field);
  table_name : string;
}.

(** One row of [system.parts]. Unsigned integers and timestamps are [N]. *)
Record SystemPart : Type := {
  database : string;
  table : string;
  engine : string;
  partition : string;
  name : string;
  replicated : N;
  active : N;
  marks : N;
  bytes : N;
  modification_time : N;
  remove_time : N;
  refcount : N;
}.

(** Modelled from the spec: the metaclass of [Model] ([models.py], not part
    of this file) collects the declared fields into [_fields]; the spec says
    the field list "is derived from the declared record schema, in
    declaration order". The declarations are those of the class body of
    [SystemPart]. *)
Definition SystemPart_fields : list (string * Field) :=
  [ ("database", StringField);
    ("table", StringField);
    ("engine", StringField);
    ("partition", StringField);
    ("name", StringField);
    ("replicated", UInt8Field);
    ("active", UInt8Field);
    ("marks", UInt64Field);
    ("bytes", UInt64Field);
    ("modification_time", DateTimeField);
    ("remove_time", DateTimeField);
    ("refcount", UInt32Field) ].

(** The class [SystemPart] itself; [table_name] returns ['system.parts']. *)
Definition SystemPart_cls : ModelClass :=
  {| _fields := SystemPart_fields; table_name := "system.parts" |}.

Definition readonly : bool := true.

(** [SystemPart.OPERATIONS]. *)
Definition OPERATIONS : gset string :=
  {[ "DETACH"; "DROP"; "ATTACH"; "FREEZE"; "FETCH" ]}.

(** ** Values, the external connection and the log of delegated calls *)

Inductive pyval : Type :=
| PyNone
| PyStr (s : string)
| PyParts (rows : list SystemPart).

(** Modelled from the spec: the [Database] collaborator ([database.py], not
    part of this file) "is assumed to provide: raw(sql, settings, stream)
    (execute non-query SQL) and select(sql, model_class) (execute query,
    deserialize rows into records) and a db_name property". Each method
    answers with a value or raises. *)
Record Database : Type := {
  db_name : string;
  raw : string -> option (gmap string string) -> bool -> exn + pyval;
  select : string -> ModelClass -> exn + pyval;
}.

(** What can be passed where a connection is expected: an instance of
    [Database], or any other object, of which only the three attributes
    that the methods look up matter (absent ones are [None]). *)
Inductive pyobj : Type :=
| DatabaseInstance (d : Database)
| OtherObject
    (o_db_name : option string)
    (o_raw : option (string -> option (gmap string string) -> bool
                     -> exn + pyval))
    (o_select : option (string -> ModelClass -> exn + pyval)).

(** One delegated call, with the arguments it was given. *)
Inductive call : Type :=
| Raw (sql : string) (settings : option (gmap string string)) (stream : bool)
| Select (sql : string) (model_class : ModelClass).

(** A method body: from the log so far to an outcome and the log after. *)
Definition M (A : Type) : Type := list call -> (exn + A) * list call.

Definition ret {A : Type} (a : A) : M A := fun log => (inr a, log).

Definition raise {A : Type} (e : exn) : M A := fun log => (inl e, log).

Definition bind {A B : Type} (m : M A) (k : A -> M B) : M B :=
  fun log =>
    match m log with
    | (inl e, log') => (inl e, log')
    | (inr a, log') => k a log'
    end.

Notation "x <- m ;; k" := (bind m (fun x => k))
  (at level 100, m at next level, right associativity).

Definition lift {A : Type} (r : exn + A) : M A := fun log => (r, log).

(** [assert cond, msg]. *)
Definition assert_ (cond : bool) (msg : assertion) : M unit :=
  if cond then ret tt else raise (AssertionError msg).

(** [isinstance(obj, Database)]. *)
Definition isinstance_Database (obj : pyobj) : bool :=
  match obj with
  | DatabaseInstance _ => true
  | OtherObject _ _ _ => false
  end.

(** The attributes [obj.db_name], [obj.raw], [obj.select], when present. *)
Definition attr_db_name (obj : pyobj) : option string :=
  match obj with
  | DatabaseInstance d => Some (db_name d)
  | OtherObject n _ _ => n
  end.

Definition attr_raw (obj : pyobj)
  : option (string -> option (gmap string string) -> bool -> exn + pyval) :=
  match obj with
  | DatabaseInstance d => Some (raw d)
  | OtherObject _ f _ => f
  end.

Definition attr_select (obj : pyobj)
  : option (string -> ModelClass -> exn + pyval) :=
  match obj with
  | DatabaseInstance d => Some (select d)
  | OtherObject _ _ f => f
  end.

(** An attribute lookup raises [AttributeError] on an absent attribute. *)
Definition getattr {A : Type} (attr : string) (v : option A) : M A :=
  match v with
  | Some a => ret a
  | None => raise (AttributeError attr)
  end.

(** Calling a bound method of the connection: the call is logged and its
    outcome is the one the connection gives. *)
Definition call_raw
    (f : string -> option (gmap string string) -> bool -> exn + pyval)
    (sql : string) (settings : option (gmap string string)) (stream : bool)
  : M pyval :=
  fun log => (f sql settings stream, log ++ [Raw sql settings stream]).

Definition call_select (f : string -> ModelClass -> exn + pyval)
    (sql : string) (model_class : ModelClass) : M pyval :=
  fun log => (f sql model_class, log ++ [Select sql model_class]).

(** ** The methods of [SystemPart] *)

Definition _partition_operation_sql (self : SystemPart) (db : pyobj)
    (operation : string) (settings : option (gmap string string))
    (from_part : option string) : M pyval :=
  let operation := upper operation in
  _ <- assert_ (bool_decide (operation ∈ OPERATIONS))
         (operation_must_be_in OPERATIONS) ;;
  dbn <- getattr "db_name" (attr_db_name db) ;;
  sql <- lift (pyformat "ALTER TABLE `%s`.`%s` %s PARTITION '%s'"
                 [dbn; table self; operation; partition self]) ;;
  sql <- match from_part with
         | Some p =>
             tail <- lift (pyformat " FROM %s" [p]) ;;
             ret (sql +:+ tail)
         | None => ret sql
         end ;;
  f <- getattr "raw" (attr_raw db) ;;
  _ <- call_raw f sql settings false ;;
  ret PyNone.

Definition detach (self : SystemPart) (database : pyobj)
    (settings : option (gmap string string)) : M pyval :=
  _partition_operation_sql self database "DETACH" settings None.

Definition drop (self : SystemPart) (database : pyobj)
    (settings : option (gmap string string)) : M pyval :=
  _partition_operation_sql self database "DROP" settings None.

Definition attach (self : SystemPart) (database : pyobj)
    (settings : option (gmap string string)) : M pyval :=
  _partition_operation_sql self database "ATTACH" settings None.

Definition freeze (self : SystemPart) (database : pyobj)
    (settings : option (gmap string string)) : M pyval :=
  _partition_operation_sql self database "FREEZE" settings None.

(** [zookeeper_path] has no default: the caller always gives it, possibly
    as [None]. *)
Definition fetch (self : SystemPart) (database : pyobj)
    (zookeeper_path : option string)
    (settings : option (gmap string string)) : M pyval :=
  _partition_operation_sql self database "FETCH" settings zookeeper_path.

Definition get_active (cls : ModelClass) (database : pyobj) : M pyval :=
  _ <- assert_ (isinstance_Database database) database_must_be_Database ;;
  let field_names := join "," (map fst (_fields cls)) in
  f <- getattr "select" (attr_select database) ;;
  dbn <- getattr "db_name" (attr_db_name database) ;;
  sql <- lift (pyformat "SELECT %s FROM %s WHERE active AND database='%s'"
                 [field_names; table_name cls; dbn]) ;;
  call_select f sql cls.

Definition all (cls : ModelClass) (database : pyobj) : M pyval :=
  _ <- assert_ (isinstance_Database database) database_must_be_Database ;;
  let field_names := join "," (map fst (_fields cls)) in
  f <- getattr "select" (attr_select database) ;;
  dbn <- getattr "db_name" (attr_db_name database) ;;
  sql <- lift (pyformat "SELECT %s FROM %s WHERE database='%s'"
                 [field_names; table_name cls; dbn]) ;;
  call_select f sql cls.

(** ** Every public entry point, as one type *)

Inductive invocation : Type :=
| call_partition_operation_sql (self : SystemPart) (db : pyobj)
    (operation : string) (settings : option (gmap string string))
    (from_part : option string)
| call_detach (self : SystemPart) (database : pyobj)
    (settings : option (gmap string string))
| call_drop (self : SystemPart) (database : pyobj)
    (settings : option (gmap string string))
| call_attach (self : SystemPart) (database : pyobj)
    (settings : option (gmap string string))
| call_freeze (self : SystemPart) (database : pyobj)
    (settings : option (gmap string string))
| call_fetch (self : SystemPart) (database : pyobj)
    (zookeeper_path : option string)
    (settings : option (gmap string string))
| call_get_active (cls : ModelClass) (database : pyobj)
| call_all (cls : ModelClass) (database : pyobj).

Definition run (i : invocation) : M pyval :=
  match i with
  | call_partition_operation_sql self db operation settings from_part =>
      _partition_operation_sql self db operation settings from_part
  | call_detach self database settings => detach self database settings
  | call_drop self database settings => drop self database settings
  | call_attach self database settings => attach self database settings
  | call_freeze self database settings => freeze self database settings
  | call_fetch self database zookeeper_path settings =>
      fetch self database zookeeper_path settings
  | call_get_active cls database => get_active cls database
  | call_all cls database => all cls database
  end.

(** The settings the caller supplied ([get_active] and [all] take none). *)
Definition settings_of (i : invocation) : option (gmap string string) :=
  match i with
  | call_partition_operation_sql _ _ _ settings _ => settings
  | call_detach _ _ settings => settings
  | call_drop _ _ settings => settings
  | call_attach _ _ settings => settings
  | call_freeze _ _ settings => settings
  | call_fetch _ _ _ settings => settings
  | call_get_active _ _ => None
  | call_all _ _ => None
  end.

(** The settings a logged call carries, if it carries any. *)
Definition call_settings (c : call) : option (option (gmap string string)) :=
  match c with
  | Raw _ settings _ => Some settings
  | Select _ _ => None
  end.

(** ** The statements as the specification writes them *)

(** The grammar of the partition statement:
    ALTER TABLE `{database}`.`{table}` {OPERATION} PARTITION '{partition}'
    followed by [ FROM {path}] when a source path is given. *)
Definition alter_table_sql (database_name table_name operation_name
    partition_name : string) (path : option string) : string :=
  let head :=
    "ALTER TABLE `" +:+ database_name +:+ "`.`" +:+ table_name +:+ "` "
      +:+ operation_name +:+ " PARTITION '" +:+ partition_name +:+ "'" in
  match path with
  | Some p => head +:+ " FROM " +:+ p
  | None => head
  end.

(** The field names of the data model, in the order of their declaration. *)
Definition declared_field_names : list string :=
  [ "database"; "table"; "engine"; "partition"; "name"; "replicated";
    "active"; "marks"; "bytes"; "modification_time"; "remove_time";
    "refcount" ].

(** The query over the parts table: the column list, the table, and the
    filter on the database name, preceded by [active] when asked for. *)
Definition select_parts_sql (columns : list string) (only_active : bool)
    (database_name : string) : string :=
  "SELECT " +:+ join "," columns +:+ " FROM system.parts WHERE "
    +:+ (if only_active then "active AND " else "")
    +:+ "database='" +:+ database_name +:+ "'".

(** What the delegated [raw] call leaves as the outcome of the method: its
    exception if it raises, [None] otherwise (the method has no [return]). *)
Definition after_raw (r : exn + pyval) : exn + pyval :=
  match r with
  | inl e => inl e
  | inr _ => inr PyNone
  end.

(** ** Sample values *)

Definition sample_part : SystemPart :=
  {| database := "default"; table := "events"; engine := "MergeTree";
     partition := "201901"; name := "20190101_20190131_1_1_0";
     replicated := 0; active := 1; marks := 2; bytes := 4096;
     modification_time := 1546300800; remove_time := 0; refcount := 1 |}.

(** A connection that accepts every statement. *)
Definition sample_db : Database :=
  {| db_name := "default";
     raw := fun _ _ _ => inr (PyStr "");
     select := fun _ _ => inr (PyParts [sample_part]) |}.

(** An object with a [db_name] and a [raw] method whose class is not
    [Database]. *)
Definition sample_duck : pyobj :=
  OtherObject (Some "default") (Some (fun _ _ _ => inr (PyStr ""))) None.

Definition sample_settings : option (gmap string string) :=
  Some {[ "max_execution_time" := "30" ]}.

(** The reading "the method returns the SQL text and has no effect": the
    outcome is the string and the log of delegated calls is unchanged. *)
Definition returns_sql_without_effect (m : M pyval) (sql : string)
    (log : list call) : Prop :=
  m log = (inr (PyStr sql), log).

(** The calls that a run adds to the log are none or one, and a [raw] call
    among them carries the given settings. *)
Definition adds_at_most_one (st : option (gmap string string))
    (r : (exn + pyval) * list call) (log : list call) : Prop :=
  exists calls : list call,
    snd r = log ++ calls
    /\ length calls <= 1
    /\ Forall (fun c => call_settings c = None
                        \/ call_settings c = Some st) calls.

(** ** Kinds of invocation and of delegated call *)

(** The two class methods that read; the other entry points alter. *)
Definition is_query (i : invocation) : bool :=
  match i with
  | call_get_active _ _ | call_all _ _ => true
  | _ => false
  end.

Definition is_select (c : call) : bool :=
  match c with
  | Select _ _ => true
  | Raw _ _ _ => false
  end.

(** An object with a [db_name] and a [select] method whose class is not
    [Database]. *)
Definition sample_reader : pyobj :=
  OtherObject (Some "default") None (Some (fun _ _ => inr (PyParts []))).

(** An object that has a [db_name] only. *)
Definition sample_nameonly : pyobj :=
  OtherObject (Some "default") None None.

(** A part of the given table and a connection of the given name, the
    other fields as in the samples. *)
Definition sample_part_of (t : string) : SystemPart :=
  {| database := "default"; table := t; engine := "MergeTree";
     partition := "201901"; name := "20190101_20190131_1_1_0";
     replicated := 0; active := 1; marks := 2; bytes := 4096;
     modification_time := 1546300800; remove_time := 0; refcount := 1 |}.

Definition sample_db_named (n : string) : Database :=
  {| db_name := n;
     raw := fun _ _ _ => inr (PyStr "");
     select := fun _ _ => inr (PyParts []) |}.

(** ** Checks on concrete inputs *)

Example upper_freeze : upper "freeze" = "FREEZE".
Proof. reflexivity. Qed.

Example upper_mixed : upper "Fetch_1z{`" = "FETCH_1Z{`".
Proof. reflexivity. Qed.

Example pyformat_two (a b : string) :
  pyformat "x=%s, y='%s'" [a; b] = inr ("x=" +:+ a +:+ ", y='" +:+ b +:+ "'").
Proof. reflexivity. Qed.

Example pyformat_short : exists e, pyformat "%s %s" ["a"] = inl e.
Proof. eexists; reflexivity. Qed.

Example get_active_sample :
  get_active SystemPart_cls (DatabaseInstance sample_db) []
  = (inr (PyParts [sample_part]),
     [Select
        "SELECT database,table,engine,partition,name,replicated,active,marks,bytes,modification_time,remove_time,refcount FROM system.parts WHERE active AND database='default'"
        SystemPart_cls]).
Proof. reflexivity. Qed.

Example all_sample :
  all SystemPart_cls (DatabaseInstance sample_db) []
  = (inr (PyParts [sample_part]),
     [Select
        "SELECT database,table,engine,partition,name,replicated,active,marks,bytes,modification_time,remove_time,refcount FROM system.parts WHERE database='default'"
        SystemPart_cls]).
Proof. reflexivity. Qed.

Example all_on_duck :
  all SystemPart_cls sample_duck []
  = (inl (AssertionError database_must_be_Database), []).
Proof. reflexivity. Qed.

Example fetch_sample :
  fetch sample_part (DatabaseInstance sample_db)
    (Some "/clickhouse/tables/01/events") None []
  = (inr PyNone,
     [Raw
        "ALTER TABLE `default`.`events` FETCH PARTITION '201901' FROM /clickhouse/tables/01/events"
        None false]).
Proof. vm_compute. reflexivity. Qed.

Example drop_without_db_name :
  drop sample_part (OtherObject None None None) None []
  = (inl (AttributeError "db_name"), []).
Proof. vm_compute. reflexivity. Qed.

(** ** Formatting the two templates *)

Lemma append_empty_r (s : string) : s +:+ "" = s.
Proof.
  induction s as [|c s' IH]; [reflexivity|].
  change (String c (s' +:+ "") = String c s').
  f_equal. exact IH.
Qed.

Lemma pyformat_alter_table (a b c d : string) :
  pyformat "ALTER TABLE `%s`.`%s` %s PARTITION '%s'" [a; b; c; d]
  = inr (alter_table_sql a b c d None).
Proof. reflexivity. Qed.

Lemma pyformat_from (p : string) :
  pyformat " FROM %s" [p] = inr (" FROM " +:+ p).
Proof. cbn. now rewrite append_empty_r. Qed.

Lemma pyformat_select (only_active : bool) (cols tbl dbn : string) :
  pyformat
    (if only_active
     then "SELECT %s FROM %s WHERE active AND database='%s'"
     else "SELECT %s FROM %s WHERE database='%s'") [cols; tbl; dbn]
  = inr ("SELECT " +:+ cols +:+ " FROM " +:+ tbl +:+ " WHERE "
           +:+ (if only_active then "active AND " else "")
           +:+ "database='" +:+ dbn +:+ "'").
Proof. destruct only_active; reflexivity. Qed.

(** ** The run of the partition operation, case by case *)

Lemma partition_operation_run (self : SystemPart) (db : pyobj)
    (operation : string) (settings : option (gmap string string))
    (from_part : option string) (log : list call) :
  _partition_operation_sql self db operation settings from_part log =
    if bool_decide (upper operation ∈ OPERATIONS) then
      match attr_db_name db with
      | None => (inl (AttributeError "db_name"), log)
      | Some dbn =>
          match attr_raw db with
          | None => (inl (AttributeError "raw"), log)
          | Some f =>
              let sql := alter_table_sql dbn (table self) (upper operation)
                           (partition self) from_part in
              (after_raw (f sql settings false),
               log ++ [Raw sql settings false])
          end
      end
    else (inl (AssertionError (operation_must_be_in OPERATIONS)), log).
Proof.
  unfold _partition_operation_sql, bind, assert_.
  destruct (bool_decide (upper operation ∈ OPERATIONS)); [|reflexivity].
  cbn [ret raise].
  destruct (attr_db_name db) as [dbn|]; [|reflexivity].
  cbn [getattr ret].
  rewrite pyformat_alter_table.
  destruct from_part as [p|]; rewrite ?pyformat_from;
    (destruct (attr_raw db) as [f|]; [|reflexivity]);
    unfold getattr, call_raw, lift, ret, alter_table_sql, after_raw;
    destruct (f _ settings false); reflexivity.
Qed.

Lemma OPERATIONS_spec (s : string) :
  s ∈ OPERATIONS <->
  s = "DETACH" \/ s = "DROP" \/ s = "ATTACH" \/ s = "FREEZE" \/ s = "FETCH".
Proof.
  unfold OPERATIONS. rewrite !elem_of_union, !elem_of_singleton. tauto.
Qed.

(** A valid operation on a [Database] instance: the statement is built and
    handed to [raw] in one call. *)
Lemma partition_operation_valid (self : SystemPart) (d : Database)
    (operation : string) (settings : option (gmap string string))
    (from_part : option string) (log : list call) :
  upper operation ∈ OPERATIONS ->
  _partition_operation_sql self (DatabaseInstance d) operation settings
    from_part log
  = (after_raw
       (raw d (alter_table_sql (db_name d) (table self) (upper operation)
                 (partition self) from_part) settings false),
     log ++ [Raw (alter_table_sql (db_name d) (table self) (upper operation)
                    (partition self) from_part) settings false]).
Proof.
  intros Hop. rewrite partition_operation_run.
  rewrite bool_decide_eq_true_2 by exact Hop. reflexivity.
Qed.

(** An operation whose upper-cased name is not allowed stops at the
    assertion, whatever the other arguments are. *)
Lemma partition_operation_invalid (self : SystemPart) (db : pyobj)
    (operation : string) (settings : option (gmap string string))
    (from_part : option string) (log : list call) :
  upper operation ∉ OPERATIONS ->
  _partition_operation_sql self db operation settings from_part log
  = (inl (AssertionError (operation_must_be_in OPERATIONS)), log).
Proof.
  intros Hop. rewrite partition_operation_run.
  rewrite bool_decide_eq_false_2 by exact Hop. reflexivity.
Qed.

(** ** The run of the two queries *)

Lemma get_active_run (cls : ModelClass) (database : pyobj)
    (log : list call) :
  get_active cls database log =
    match database with
    | DatabaseInstance d =>
        let sql := "SELECT " +:+ join "," (map fst (_fields cls))
                     +:+ " FROM " +:+ table_name cls
                     +:+ " WHERE active AND database='" +:+ db_name d
                     +:+ "'" in
        (select d sql cls, log ++ [Select sql cls])
    | OtherObject _ _ _ =>
        (inl (AssertionError database_must_be_Database), log)
    end.
Proof.
  destruct database as [d|n f g]; [|reflexivity].
  unfold get_active, bind, assert_; cbn [isinstance_Database ret].
  cbn [attr_select attr_db_name getattr ret].
  rewrite (pyformat_select true). reflexivity.
Qed.

Lemma all_run (cls : ModelClass) (database : pyobj) (log : list call) :
  all cls database log =
    match database with
    | DatabaseInstance d =>
        let sql := "SELECT " +:+ join "," (map fst (_fields cls))
                     +:+ " FROM " +:+ table_name cls
                     +:+ " WHERE database='" +:+ db_name d +:+ "'" in
        (select d sql cls, log ++ [Select sql cls])
    | OtherObject _ _ _ =>
        (inl (AssertionError database_must_be_Database), log)
    end.
Proof.
  destruct database as [d|n f g]; [|reflexivity].
  unfold all, bind, assert_; cbn [isinstance_Database ret].
  cbn [attr_select attr_db_name getattr ret].
  rewrite (pyformat_select false). reflexivity.
Qed.

(** The two queries turn away everything that is not a [Database]. *)
Lemma queries_reject_non_Database (cls : ModelClass) (database : pyobj)
    (log : list call) :
  isinstance_Database database = false ->
  get_active cls database log
    = (inl (AssertionError database_must_be_Database), log)
  /\ all cls database log
    = (inl (AssertionError database_must_be_Database), log).
Proof.
  intros H. rewrite get_active_run, all_run.
  destruct database; [discriminate H|]. split; reflexivity.
Qed.

(** ** Properties of the partition operations *)

(** C1. For every operation among DETACH, DROP, ATTACH and FREEZE, every
    part record and every database, the statement that the partition
    operation (called, as its wrappers call it, without a source path) hands
    to the connection is exactly
    ALTER TABLE `d`.`t` OPERATION PARTITION 'p', with nothing after the
    closing quote: no FROM clause. *)
Theorem C1_plain_operations_exact_sql (self : SystemPart) (d : Database)
    (operation : string) (settings : option (gmap string string))
    (log : list call) :
  operation ∈ ({[ "DETACH"; "DROP"; "ATTACH"; "FREEZE" ]} : gset string) ->
  let sql := "ALTER TABLE `" +:+ db_name d +:+ "`.`" +:+ table self +:+ "` "
               +:+ operation +:+ " PARTITION '" +:+ partition self +:+ "'" in
  _partition_operation_sql self (DatabaseInstance d) operation settings None
    log
  = (after_raw (raw d sql settings false), log ++ [Raw sql settings false]).
Proof.
  rewrite !elem_of_union, !elem_of_singleton.
  intros [[[-> | ->] | ->] | ->]; intros sql; subst sql;
    refine (partition_operation_valid self d _ settings None log _);
    apply OPERATIONS_spec; cbn; tauto.
Qed.

Lemma C1_plain_operations_exact_sql_witness :
  "DROP" ∈ ({[ "DETACH"; "DROP"; "ATTACH"; "FREEZE" ]} : gset string)
  /\ _partition_operation_sql sample_part (DatabaseInstance sample_db) "DROP"
       sample_settings None []
     = (inr PyNone,
        [Raw "ALTER TABLE `default`.`events` DROP PARTITION '201901'"
           sample_settings false]).
Proof.
  assert (H : "DROP" ∈ ({[ "DETACH"; "DROP"; "ATTACH"; "FREEZE" ]}
                        : gset string)).
  { rewrite !elem_of_union, !elem_of_singleton. tauto. }
  split; [exact H|].
  exact (C1_plain_operations_exact_sql sample_part sample_db "DROP"
           sample_settings [] H).
Defined.

(** C2, as amended. For every valid operation, the partition operation
    builds the statement and hands it to the connection in one delegated
    call [raw(sql, settings=settings, stream=False)], which is its effect;
    each of detach, drop, attach, freeze and fetch does so with its own
    operation name. *)
Theorem C2_operation_is_delegated (self : SystemPart) (d : Database)
    (operation : string) (settings : option (gmap string string))
    (from_part : option string) (log : list call) :
  upper operation ∈ OPERATIONS ->
  let stmt := fun op path =>
    alter_table_sql (db_name d) (table self) op (partition self) path in
  snd (_partition_operation_sql self (DatabaseInstance d) operation settings
         from_part log)
    = log ++ [Raw (stmt (upper operation) from_part) settings false]
  /\ snd (detach self (DatabaseInstance d) settings log)
    = log ++ [Raw (stmt "DETACH" None) settings false]
  /\ snd (drop self (DatabaseInstance d) settings log)
    = log ++ [Raw (stmt "DROP" None) settings false]
  /\ snd (attach self (DatabaseInstance d) settings log)
    = log ++ [Raw (stmt "ATTACH" None) settings false]
  /\ snd (freeze self (DatabaseInstance d) settings log)
    = log ++ [Raw (stmt "FREEZE" None) settings false]
  /\ snd (fetch self (DatabaseInstance d) from_part settings log)
    = log ++ [Raw (stmt "FETCH" from_part) settings false].
Proof.
  intros Hop stmt; subst stmt.
  unfold detach, drop, attach, freeze, fetch.
  repeat split.
  - now rewrite partition_operation_valid.
  - rewrite partition_operation_valid; [reflexivity|].
    apply OPERATIONS_spec; cbn; tauto.
  - rewrite partition_operation_valid; [reflexivity|].
    apply OPERATIONS_spec; cbn; tauto.
  - rewrite partition_operation_valid; [reflexivity|].
    apply OPERATIONS_spec; cbn; tauto.
  - rewrite partition_operation_valid; [reflexivity|].
    apply OPERATIONS_spec; cbn; tauto.
  - rewrite partition_operation_valid; [reflexivity|].
    apply OPERATIONS_spec; cbn; tauto.
Qed.

Lemma C2_operation_is_delegated_witness :
  upper "attach" ∈ OPERATIONS
  /\ snd (_partition_operation_sql sample_part (DatabaseInstance sample_db)
            "attach" sample_settings None [])
     = [Raw "ALTER TABLE `default`.`events` ATTACH PARTITION '201901'"
          sample_settings false].
Proof.
  assert (H : upper "attach" ∈ OPERATIONS).
  { apply OPERATIONS_spec; cbn; tauto. }
  split; [exact H|].
  exact (proj1 (C2_operation_is_delegated sample_part sample_db "attach"
                  sample_settings None [] H)).
Defined.

(** C2, as stated, fails: detach on a sample part does not return the
    statement and leave the log alone; it returns [None] and the log holds
    the delegated call. *)
Lemma C2_counterexample :
  detach sample_part (DatabaseInstance sample_db) None []
    = (inr PyNone,
       [Raw "ALTER TABLE `default`.`events` DETACH PARTITION '201901'" None
          false])
  /\ ~ returns_sql_without_effect
         (detach sample_part (DatabaseInstance sample_db) None)
         "ALTER TABLE `default`.`events` DETACH PARTITION '201901'" [].
Proof.
  assert (E : detach sample_part (DatabaseInstance sample_db) None []
              = (inr PyNone,
                 [Raw "ALTER TABLE `default`.`events` DETACH PARTITION '201901'"
                    None false])).
  { unfold detach. rewrite partition_operation_valid; [reflexivity|].
    apply OPERATIONS_spec; cbn; tauto. }
  split; [exact E|].
  unfold returns_sql_without_effect. rewrite E. discriminate.
Qed.

(** C3, as amended. For every operation name whose upper-cased form is not
    in the allowed set, the partition operation raises the assertion error
    before any statement is built and before any call to the connection:
    the log of delegated calls is unchanged, whatever the connection
    argument, the settings and the source path are. *)
Theorem C3_invalid_operation_rejected (self : SystemPart) (db : pyobj)
    (operation : string) (settings : option (gmap string string))
    (from_part : option string) (log : list call) :
  upper operation ∉ OPERATIONS ->
  _partition_operation_sql self db operation settings from_part log
  = (inl (AssertionError (operation_must_be_in OPERATIONS)), log).
Proof. apply partition_operation_invalid. Qed.

Lemma C3_invalid_operation_rejected_witness :
  (upper "truncate" ∉ OPERATIONS)
  /\ _partition_operation_sql sample_part (DatabaseInstance sample_db)
       "truncate" sample_settings (Some "/clickhouse/tables/01/events") []
     = (inl (AssertionError (operation_must_be_in OPERATIONS)), []).
Proof.
  assert (H : upper "truncate" ∉ OPERATIONS).
  { rewrite OPERATIONS_spec; cbn. intros [H|[H|[H|[H|H]]]]; discriminate H. }
  split; [exact H|].
  exact (C3_invalid_operation_rejected sample_part
           (DatabaseInstance sample_db) "truncate" sample_settings
           (Some "/clickhouse/tables/01/events") [] H).
Defined.

(** C3, as stated, fails: the name freeze (lower case) is not in the
    allowed set, yet it is accepted and the statement is sent. *)
Lemma C3_counterexample :
  ("freeze" ∉ OPERATIONS)
  /\ _partition_operation_sql sample_part (DatabaseInstance sample_db)
       "freeze" None None []
     = (inr PyNone,
        [Raw "ALTER TABLE `default`.`events` FREEZE PARTITION '201901'" None
           false]).
Proof.
  split.
  - rewrite OPERATIONS_spec. intros [H|[H|[H|[H|H]]]]; discriminate H.
  - rewrite partition_operation_valid; [reflexivity|].
    apply OPERATIONS_spec; cbn; tauto.
Qed.

(** C4. For the FETCH operation with a source path p, the statement handed
    to the connection ends with [ FROM p]; the fetch wrapper takes the
    source path as an argument without default and passes it on as the
    FROM source of the partition operation. *)
Theorem C4_fetch_ends_with_from (self : SystemPart) (d : Database)
    (p : string) (settings : option (gmap string string))
    (log : list call) :
  let sql := alter_table_sql (db_name d) (table self) "FETCH"
               (partition self) (Some p) in
  endswith sql (" FROM " +:+ p)
  /\ _partition_operation_sql self (DatabaseInstance d) "FETCH" settings
       (Some p) log
     = (after_raw (raw d sql settings false),
        log ++ [Raw sql settings false])
  /\ fetch self (DatabaseInstance d) (Some p) settings log
     = (after_raw (raw d sql settings false),
        log ++ [Raw sql settings false])
  /\ (forall (database : pyobj) (zookeeper_path : option string),
        fetch self database zookeeper_path settings
        = _partition_operation_sql self database "FETCH" settings
            zookeeper_path).
Proof.
  intros sql.
  assert (Hop : upper "FETCH" ∈ OPERATIONS).
  { apply OPERATIONS_spec; cbn; tauto. }
  repeat split.
  - eexists. reflexivity.
  - exact (partition_operation_valid self d "FETCH" settings (Some p) log
             Hop).
  - exact (partition_operation_valid self d "FETCH" settings (Some p) log
             Hop).
Qed.

(** C5. For every database named X, get_active and all hand to [select] a
    SELECT over [system.parts] whose column list is the declared field
    names in declaration order and whose WHERE clause has database='X';
    get_active puts [active AND] in front of it, all does not. *)
Theorem C5_select_statements (d : Database) (log : list call) :
  map fst (_fields SystemPart_cls) = declared_field_names
  /\ get_active SystemPart_cls (DatabaseInstance d) log
     = (select d (select_parts_sql declared_field_names true (db_name d))
          SystemPart_cls,
        log ++ [Select (select_parts_sql declared_field_names true
                          (db_name d)) SystemPart_cls])
  /\ all SystemPart_cls (DatabaseInstance d) log
     = (select d (select_parts_sql declared_field_names false (db_name d))
          SystemPart_cls,
        log ++ [Select (select_parts_sql declared_field_names false
                          (db_name d)) SystemPart_cls]).
Proof.
  split; [reflexivity|].
  rewrite get_active_run, all_run. split; reflexivity.
Qed.

(** C6, at the failing input. An object that is not a [Database] but has
    a [db_name] and a [raw] method is not turned away by detach: the
    statement is sent through it. *)
Theorem C6_partition_operation_takes_any_object :
  isinstance_Database sample_duck = false
  /\ detach sample_part sample_duck None []
     = (inr PyNone,
        [Raw "ALTER TABLE `default`.`events` DETACH PARTITION '201901'" None
           false]).
Proof.
  split; [reflexivity|].
  unfold detach. rewrite partition_operation_run.
  rewrite bool_decide_eq_true_2; [reflexivity|].
  apply OPERATIONS_spec; cbn; tauto.
Qed.

(** C7. Each wrapper is the partition operation at its own operation name:
    detach, drop, attach and freeze pass no source path, fetch passes its
    path argument. *)
Theorem C7_wrappers_are_the_builder (self : SystemPart) (database : pyobj)
    (settings : option (gmap string string)) :
  detach self database settings
    = _partition_operation_sql self database "DETACH" settings None
  /\ drop self database settings
    = _partition_operation_sql self database "DROP" settings None
  /\ attach self database settings
    = _partition_operation_sql self database "ATTACH" settings None
  /\ freeze self database settings
    = _partition_operation_sql self database "FREEZE" settings None
  /\ (forall zookeeper_path : option string,
        fetch self database zookeeper_path settings
        = _partition_operation_sql self database "FETCH" settings
            zookeeper_path).
Proof. repeat split. Qed.

(** ** At most one delegated call *)

Lemma adds_none (st : option (gmap string string)) (o : exn + pyval)
    (log : list call) :
  adds_at_most_one st (o, log) log.
Proof.
  exists []. cbn [snd length]. rewrite app_nil_r.
  split; [reflexivity|]. split; [lia|constructor].
Qed.

Lemma adds_one (st : option (gmap string string)) (o : exn + pyval)
    (log : list call) (c : call) :
  call_settings c = None \/ call_settings c = Some st ->
  adds_at_most_one st (o, log ++ [c]) log.
Proof.
  intros Hc. exists [c]. cbn [snd length].
  split; [reflexivity|]. split; [lia|]. constructor; [exact Hc|constructor].
Qed.

Lemma partition_operation_adds_at_most_one (self : SystemPart) (db : pyobj)
    (operation : string) (settings : option (gmap string string))
    (from_part : option string) (log : list call) :
  adds_at_most_one settings
    (_partition_operation_sql self db operation settings from_part log) log.
Proof.
  rewrite partition_operation_run.
  destruct (bool_decide (upper operation ∈ OPERATIONS));
    [|apply adds_none].
  destruct (attr_db_name db) as [dbn|]; [|apply adds_none].
  destruct (attr_raw db) as [f|]; [|apply adds_none].
  apply adds_one. right. reflexivity.
Qed.

Lemma queries_add_at_most_one (cls : ModelClass) (database : pyobj)
    (log : list call) :
  adds_at_most_one None (get_active cls database log) log
  /\ adds_at_most_one None (all cls database log) log.
Proof.
  rewrite get_active_run, all_run.
  destruct database as [d|n f g]; split;
    solve [apply adds_none | apply adds_one; left; reflexivity].
Qed.

(** C8. Every invocation of every method ends, with a value or an
    exception, having added at most one delegated call to the log, and a
    [raw] call that it adds carries the settings of the caller as they were
    given. *)
Theorem C8_at_most_one_delegated_call (i : invocation) (log : list call) :
  exists (outcome : exn + pyval) (calls : list call),
    run i log = (outcome, log ++ calls)
    /\ length calls <= 1
    /\ Forall (fun c => call_settings c = None
                        \/ call_settings c = Some (settings_of i)) calls.
Proof.
  assert (H : adds_at_most_one (settings_of i) (run i log) log).
  { destruct i; cbn [run settings_of];
      unfold detach, drop, attach, freeze, fetch;
      try apply partition_operation_adds_at_most_one;
      solve [apply queries_add_at_most_one]. }
  destruct H as (calls & Hlog & Hlen & Hst).
  exists (fst (run i log)), calls.
  split; [|split; assumption].
  rewrite <- Hlog. apply surjective_pairing.
Qed.

(** C9. FETCH with no source path is not turned away: the statement is
    built without a FROM clause and handed to the connection, and the only
    exception that can come out is one raised by the connection itself. *)
Theorem C9_fetch_without_path_unchecked (self : SystemPart) (d : Database)
    (settings : option (gmap string string)) (log : list call) :
  let sql := "ALTER TABLE `" +:+ db_name d +:+ "`.`" +:+ table self
               +:+ "` FETCH PARTITION '" +:+ partition self +:+ "'" in
  _partition_operation_sql self (DatabaseInstance d) "FETCH" settings None
    log
  = (after_raw (raw d sql settings false), log ++ [Raw sql settings false])
  /\ fetch self (DatabaseInstance d) None settings log
  = (after_raw (raw d sql settings false), log ++ [Raw sql settings false]).
Proof.
  intros sql.
  assert (Hop : upper "FETCH" ∈ OPERATIONS).
  { apply OPERATIONS_spec; cbn; tauto. }
  split;
    exact (partition_operation_valid self d "FETCH" settings None log Hop).
Qed.

(** C10. Operation names are matched without regard to case: every name
    whose upper-cased form is allowed is accepted, and the statement handed
    to the connection carries the upper-cased name. *)
Theorem C10_operation_case_insensitive (self : SystemPart) (d : Database)
    (operation : string) (settings : option (gmap string string))
    (from_part : option string) (log : list call) :
  upper operation ∈ OPERATIONS ->
  let sql := alter_table_sql (db_name d) (table self) (upper operation)
               (partition self) from_part in
  _partition_operation_sql self (DatabaseInstance d) operation settings
    from_part log
  = (after_raw (raw d sql settings false), log ++ [Raw sql settings false]).
Proof. intros Hop sql. now apply partition_operation_valid. Qed.

Lemma C10_operation_case_insensitive_witness :
  upper "freeze" ∈ OPERATIONS
  /\ _partition_operation_sql sample_part (DatabaseInstance sample_db)
       "freeze" None None []
     = (inr PyNone,
        [Raw "ALTER TABLE `default`.`events` FREEZE PARTITION '201901'" None
           false]).
Proof.
  assert (H : upper "freeze" ∈ OPERATIONS).
  { apply OPERATIONS_spec; cbn; tauto. }
  split; [exact H|].
  exact (C10_operation_case_insensitive sample_part sample_db "freeze" None
           None [] H).
Defined.

(** ** Further properties of the methods *)

Lemma ascii_upper_idempotent (c : ascii) :
  ascii_upper (ascii_upper c) = ascii_upper c.
Proof. destruct c as [[] [] [] [] [] [] [] []]; reflexivity. Qed.

Lemma upper_idempotent (s : string) : upper (upper s) = upper s.
Proof.
  induction s as [|c s' IH]; [reflexivity|].
  cbn [upper]. now rewrite ascii_upper_idempotent, IH.
Qed.

Lemma string_app_assoc (s1 s2 s3 : string) :
  (s1 +:+ s2) +:+ s3 = s1 +:+ s2 +:+ s3.
Proof.
  induction s1 as [|c s1' IH]; [reflexivity|].
  change (String c ((s1' +:+ s2) +:+ s3) = String c (s1' +:+ s2 +:+ s3)).
  now rewrite IH.
Qed.

(** X1. With a valid operation, a connection object that lacks [db_name]
    makes the partition operation raise AttributeError for [db_name]; one
    that has [db_name] but lacks [raw] makes it raise AttributeError for
    [raw]. In both cases no call is delegated. *)
Theorem X1_missing_attribute_raises (self : SystemPart) (db : pyobj)
    (operation : string) (settings : option (gmap string string))
    (from_part : option string) (log : list call) :
  upper operation ∈ OPERATIONS ->
  attr_db_name db = None \/ attr_raw db = None ->
  _partition_operation_sql self db operation settings from_part log
  = (inl (AttributeError
            match attr_db_name db with
            | None => "db_name"
            | Some _ => "raw"
            end), log).
Proof.
  intros Hop Hmiss. rewrite partition_operation_run.
  rewrite bool_decide_eq_true_2 by exact Hop.
  destruct (attr_db_name db) as [dbn|]; [|reflexivity].
  destruct Hmiss as [Hn|Hr]; [discriminate Hn|].
  now rewrite Hr.
Qed.

Lemma X1_missing_attribute_raises_witness :
  upper "drop" ∈ OPERATIONS
  /\ (attr_db_name sample_nameonly = None
      \/ attr_raw sample_nameonly = None)
  /\ _partition_operation_sql sample_part sample_nameonly "drop" None None
       []
     = (inl (AttributeError "raw"), []).
Proof.
  assert (H : upper "drop" ∈ OPERATIONS).
  { apply OPERATIONS_spec; cbn; tauto. }
  split; [exact H|]. split; [right; reflexivity|].
  exact (X1_missing_attribute_raises sample_part sample_nameonly "drop" None
           None [] H (or_intror eq_refl)).
Defined.

(** X2. Whatever its arguments, the partition operation either raises or
    returns [None]: what [raw] returns is dropped, and the statement text is
    never the result. *)
Theorem X2_returns_nothing (self : SystemPart) (db : pyobj)
    (operation : string) (settings : option (gmap string string))
    (from_part : option string) (log : list call) :
  fst (_partition_operation_sql self db operation settings from_part log)
    = inr PyNone
  \/ exists e : exn,
       fst (_partition_operation_sql self db operation settings from_part
              log) = inl e.
Proof.
  rewrite partition_operation_run.
  destruct (bool_decide (upper operation ∈ OPERATIONS));
    [|right; eexists; reflexivity].
  destruct (attr_db_name db) as [dbn|]; [|right; eexists; reflexivity].
  destruct (attr_raw db) as [f|]; [|right; eexists; reflexivity].
  cbn [fst]. unfold after_raw.
  destruct (f _ settings false) as [e|v];
    [right; eexists; reflexivity|left; reflexivity].
Qed.

(** X3. With a valid operation, any object that has a [db_name] and a
    [raw] method, of whatever class, is used as the connection: the
    statement is built with its [db_name] and sent through its [raw], and an
    exception of [raw] comes out unchanged. *)
Theorem X3_any_object_with_raw_is_used (self : SystemPart) (db : pyobj)
    (dbn : string)
    (f : string -> option (gmap string string) -> bool -> exn + pyval)
    (operation : string) (settings : option (gmap string string))
    (from_part : option string) (log : list call) :
  upper operation ∈ OPERATIONS ->
  attr_db_name db = Some dbn ->
  attr_raw db = Some f ->
  _partition_operation_sql self db operation settings from_part log
  = (after_raw
       (f (alter_table_sql dbn (table self) (upper operation)
             (partition self) from_part) settings false),
     log ++ [Raw (alter_table_sql dbn (table self) (upper operation)
                    (partition self) from_part) settings false]).
Proof.
  intros Hop Hn Hr. rewrite partition_operation_run.
  rewrite bool_decide_eq_true_2 by exact Hop.
  rewrite Hn, Hr. reflexivity.
Qed.

Lemma X3_any_object_with_raw_is_used_witness :
  upper "Freeze" ∈ OPERATIONS
  /\ attr_db_name sample_duck = Some "default"
  /\ attr_raw sample_duck = Some (fun _ _ _ => inr (PyStr ""))
  /\ _partition_operation_sql sample_part sample_duck "Freeze"
       sample_settings None []
     = (inr PyNone,
        [Raw "ALTER TABLE `default`.`events` FREEZE PARTITION '201901'"
           sample_settings false]).
Proof.
  assert (H : upper "Freeze" ∈ OPERATIONS).
  { apply OPERATIONS_spec; cbn; tauto. }
  split; [exact H|]. split; [reflexivity|]. split; [reflexivity|].
  exact (X3_any_object_with_raw_is_used sample_part sample_duck "default"
           (fun _ _ _ => inr (PyStr "")) "Freeze" sample_settings None [] H
           eq_refl eq_refl).
Defined.

(** X4. For every model class and every [Database] instance, get_active
    and all make one [select] call, with the class as [model_class] and a
    statement made of the names of [cls._fields] joined by commas and of
    [cls.table_name()], and give back what [select] gives, value or
    exception, unchanged. *)
Theorem X4_queries_for_any_class (cls : ModelClass) (d : Database)
    (log : list call) :
  let cols := join "," (map fst (_fields cls)) in
  let sql_active := "SELECT " +:+ cols +:+ " FROM " +:+ table_name cls
                      +:+ " WHERE active AND database='" +:+ db_name d
                      +:+ "'" in
  let sql_all := "SELECT " +:+ cols +:+ " FROM " +:+ table_name cls
                   +:+ " WHERE database='" +:+ db_name d +:+ "'" in
  get_active cls (DatabaseInstance d) log
    = (select d sql_active cls, log ++ [Select sql_active cls])
  /\ all cls (DatabaseInstance d) log
    = (select d sql_all cls, log ++ [Select sql_all cls]).
Proof.
  intros cols sql_active sql_all.
  rewrite get_active_run, all_run. split; reflexivity.
Qed.

(** X5. The statements of get_active and of all on the same class and
    connection differ by the filter alone: the first is the second with
    [active AND ] put in at one place. *)
Theorem X5_active_filter_is_the_difference (cls : ModelClass) (d : Database)
    (log : list call) :
  exists front back : string,
    snd (get_active cls (DatabaseInstance d) log)
      = log ++ [Select (front +:+ "active AND " +:+ back) cls]
    /\ snd (all cls (DatabaseInstance d) log)
      = log ++ [Select (front +:+ back) cls].
Proof.
  exists ("SELECT " +:+ join "," (map fst (_fields cls)) +:+ " FROM "
            +:+ table_name cls +:+ " WHERE "),
         ("database='" +:+ db_name d +:+ "'").
  rewrite get_active_run, all_run. cbn [snd].
  rewrite !string_app_assoc. split; reflexivity.
Qed.

(** X6. Upper-casing the operation name before the call changes nothing:
    the partition operation sees its operation argument only through its
    upper-cased form, and upper-casing twice is upper-casing once. *)
Theorem X6_operation_name_normalised (self : SystemPart) (db : pyobj)
    (operation : string) (settings : option (gmap string string))
    (from_part : option string) (log : list call) :
  _partition_operation_sql self db (upper operation) settings from_part log
  = _partition_operation_sql self db operation settings from_part log.
Proof.
  rewrite !partition_operation_run, upper_idempotent. reflexivity.
Qed.


(** X8. Reading and altering are kept apart: get_active and all only ever
    delegate to [select], the partition operation and its five wrappers
    only ever to [raw]. *)
Theorem X8_queries_select_operations_raw (i : invocation)
    (log : list call) :
  exists calls : list call,
    snd (run i log) = log ++ calls
    /\ Forall (fun c => is_select c = is_query i) calls.
Proof.
  assert (Hop : forall self db operation settings from_part,
    exists calls : list call,
      snd (_partition_operation_sql self db operation settings from_part
             log) = log ++ calls
      /\ Forall (fun c => is_select c = false) calls).
  { intros self db operation settings from_part.
    rewrite partition_operation_run.
    destruct (bool_decide (upper operation ∈ OPERATIONS)),
      (attr_db_name db) as [dbn|], (attr_raw db) as [f|]; cbn [snd];
      try (exists []; rewrite app_nil_r;
           split; [reflexivity|constructor]).
    eexists. split; [reflexivity|].
    constructor; [reflexivity|constructor]. }
  destruct i as [self db op st fp|self db st|self db st|self db st
                |self db st|self db zp st|cls db|cls db];
    cbn [run is_query];
    unfold detach, drop, attach, freeze, fetch; try apply Hop.
  - rewrite get_active_run. destruct db as [d|n f g]; cbn [snd].
    + eexists. split; [reflexivity|].
      constructor; [reflexivity|constructor].
    + exists []. rewrite app_nil_r. split; [reflexivity|constructor].
  - rewrite all_run. destruct db as [d|n f g]; cbn [snd].
    + eexists. split; [reflexivity|].
      constructor; [reflexivity|constructor].
    + exists []. rewrite app_nil_r. split; [reflexivity|constructor].
Qed.

(** X9. get_active and all turn away every object that is not an instance
    of [Database], also one that has a [db_name] and a [select] method, for
    every model class: the assertion error is raised before any call. *)
Theorem X9_queries_need_a_Database (cls : ModelClass) (database : pyobj)
    (log : list call) :
  isinstance_Database database = false ->
  get_active cls database log
    = (inl (AssertionError database_must_be_Database), log)
  /\ all cls database log
    = (inl (AssertionError database_must_be_Database), log).
Proof. apply queries_reject_non_Database. Qed.

Lemma X9_queries_need_a_Database_witness :
  isinstance_Database sample_reader = false
  /\ get_active SystemPart_cls sample_reader []
     = (inl (AssertionError database_must_be_Database), [])
  /\ all SystemPart_cls sample_reader []
     = (inl (AssertionError database_must_be_Database), []).
Proof.
  split; [reflexivity|].
  exact (X9_queries_need_a_Database SystemPart_cls sample_reader []
           eq_refl).
Defined.

(** X10. The FROM clause does not depend on the operation: with a source
    path p, the statement of every valid operation, DETACH, DROP, ATTACH
    and FREEZE included, ends with [ FROM p]. *)
Theorem X10_from_clause_for_every_operation (self : SystemPart)
    (d : Database) (operation p : string)
    (settings : option (gmap string string)) (log : list call) :
  upper operation ∈ OPERATIONS ->
  exists sql : string,
    endswith sql (" FROM " +:+ p)
    /\ snd (_partition_operation_sql self (DatabaseInstance d) operation
              settings (Some p) log)
       = log ++ [Raw sql settings false].
Proof.
  intros Hop. rewrite partition_operation_valid by exact Hop.
  eexists. split; [|reflexivity].
  unfold alter_table_sql. eexists. reflexivity.
Qed.

Lemma X10_from_clause_for_every_operation_witness :
  upper "DETACH" ∈ OPERATIONS
  /\ exists sql : string,
       endswith sql (" FROM " +:+ "/clickhouse/tables/01/events")
       /\ snd (_partition_operation_sql sample_part
                 (DatabaseInstance sample_db) "DETACH" None
                 (Some "/clickhouse/tables/01/events") [])
          = [] ++ [Raw sql None false].
Proof.
  assert (H : upper "DETACH" ∈ OPERATIONS).
  { apply OPERATIONS_spec; cbn; tauto. }
  split; [exact H|].
  exact (X10_from_clause_for_every_operation sample_part sample_db "DETACH"
           "/clickhouse/tables/01/events" None [] H).
Defined.

(** X11. Names are put between the backquotes as they are, without
    escaping: a connection named [a`.`b] with a part of table [c], and a
    connection named [a] with a part of table [b`.`c] of the same partition,
    send the same statement. *)
Theorem X11_names_are_not_escaped (self1 self2 : SystemPart)
    (d1 d2 : Database) (a b c operation : string)
    (settings : option (gmap string string)) (from_part : option string)
    (log : list call) :
  upper operation ∈ OPERATIONS ->
  db_name d1 = a +:+ "`.`" +:+ b ->
  table self1 = c ->
  db_name d2 = a ->
  table self2 = b +:+ "`.`" +:+ c ->
  partition self1 = partition self2 ->
  snd (_partition_operation_sql self1 (DatabaseInstance d1) operation
         settings from_part log)
  = snd (_partition_operation_sql self2 (DatabaseInstance d2) operation
           settings from_part log).
Proof.
  intros Hop Hd1 Ht1 Hd2 Ht2 Hp.
  rewrite !partition_operation_valid by exact Hop. cbn [snd].
  unfold alter_table_sql. rewrite Hd1, Ht1, Hd2, Ht2, Hp.
  destruct from_part as [p|]; rewrite !string_app_assoc; reflexivity.
Qed.

Lemma X11_names_are_not_escaped_witness :
  upper "DROP" ∈ OPERATIONS
  /\ snd (_partition_operation_sql (sample_part_of "events")
            (DatabaseInstance (sample_db_named "shop`.`orders")) "DROP" None
            None [])
     = snd (_partition_operation_sql (sample_part_of "orders`.`events")
              (DatabaseInstance (sample_db_named "shop")) "DROP" None None
              []).
Proof.
  assert (H : upper "DROP" ∈ OPERATIONS).
  { apply OPERATIONS_spec; cbn; tauto. }
  split; [exact H|].
  exact (X11_names_are_not_escaped (sample_part_of "events")
           (sample_part_of "orders`.`events")
           (sample_db_named "shop`.`orders") (sample_db_named "shop")
           "shop" "orders" "events" "DROP" None None [] H eq_refl
           eq_refl eq_refl eq_refl eq_refl).
Defined.
